(** * PolyType example scripts: a shallow embedding and its properties

    The repository holds three independent Python scripts:
    - [dist/examples/example.py]: [calculate_sum], [process_list] and the
      [Calculator] accumulator;
    - [examples/advanced_example.py]: the [DataProcessor] class;
    - [examples/gui_example.py]: the [SimpleGUI] calculator.

    Python integers are unbounded, so they are embedded as [Z].  A Python
    list that is mutated in place lives in a store indexed by object
    identity.  A call that may raise returns an [outcome]. *)

From Stdlib Require Import ZArith List Sorted Permutation Lia.
From Stdlib Require Import Floats.SpecFloat.
From stdpp Require Import base option list sorting gmap strings pretty.

Local Open Scope Z_scope.

(** ** Exceptions and fallible results *)

Inductive exn : Type :=
| ZeroDivisionError
| OverflowError
| ValueError
| OtherException (kind : string).

Inductive outcome (A : Type) : Type :=
| Ok (a : A)
| Raise (e : exn).
Arguments Ok {A} a.
Arguments Raise {A} e.

#[global] Instance outcome_ret : MRet outcome := fun A a => Ok a.

#[global] Instance outcome_bind : MBind outcome := fun A B k m =>
  match m with
  | Ok a => k a
  | Raise e => Raise e
  end.

#[global] Instance outcome_fmap : FMap outcome := fun A B f m =>
  match m with
  | Ok a => Ok (f a)
  | Raise e => Raise e
  end.

Definition raises {A : Type} (m : outcome A) : Prop := exists e, m = Raise e.

(** ** The Python builtins the scripts call *)

Module Py.

(** [sum(xs)]: starts from [0] and adds the items from left to right. *)
Definition sum (xs : list Z) : Z := fold_left Z.add xs 0.

(** [len(xs)]. *)
Definition len (xs : list Z) : Z := Z.of_nat (length xs).

(** [max(xs)]: [ValueError] on an empty list; otherwise scans from the
    first item and replaces the candidate by any strictly greater item. *)
Definition max (xs : list Z) : outcome Z :=
  match xs with
  | [] => Raise ValueError
  | x :: rest => Ok (fold_left (fun m y => if m <? y then y else m) rest x)
  end.

(** [xs.sort()]: ascending order.  On integers every correct sorting
    procedure yields the same list (see [sort_unique] below), so the
    merge sort of stdpp stands for CPython's. *)
Definition sort (xs : list Z) : list Z := merge_sort Z.le xs.

(** Binary64 floats, as Python's [float]. *)
Definition prec : Z := 53.
Definition emax : Z := 1024.

Definition float_of_int (n : Z) : spec_float :=
  match n with
  | Z0 => S754_zero false
  | Zpos p => S754_finite false p 0
  | Zneg p => S754_finite true p 0
  end.

(** [a / b] on two ints: true division.  [ZeroDivisionError] when [b] is
    zero; otherwise the exact quotient rounded once to the nearest
    binary64 (ties to even), and [OverflowError] when that rounding
    leaves the finite range. *)
Definition true_div (a b : Z) : outcome spec_float :=
  if b =? 0 then Raise ZeroDivisionError
  else
    match SFdiv prec emax (float_of_int a) (float_of_int b) with
    | S754_infinity _ => Raise OverflowError
    | q => Ok q
    end.

End Py.

(** ** dist/examples/example.py *)

Definition calculate_sum (a b : Z) : Z := a + b.

(** Identity of a list object, and the store of list objects.  Two names
    bound to the same list hold the same [loc]. *)
Definition loc : Type := positive.
Abbreviation store := (gmap positive (list Z)).

(** [process_list(numbers)]: [numbers.sort()] rewrites the object the
    caller passed; the result is the sum of the sorted contents.  [None]
    only for a reference to no object, which Python cannot form. *)
Definition process_list (numbers : loc) (h : store) : option (store * Z) :=
  match h !! numbers with
  | Some ns =>
      let h' := <[numbers := Py.sort ns]> h in
      match h' !! numbers with
      | Some sorted => Some (h', Py.sum sorted)
      | None => None
      end
  | None => None
  end.

Module Calculator.

Record t : Type := { value : Z }.

Definition __init__ (initial_value : Z) : t := {| value := initial_value |}.

(** The constructor's default argument. *)
Definition default : t := __init__ 0.

(** [add] updates the object and returns the new value. *)
Definition add (self : t) (amount : Z) : t * Z :=
  let self' := {| value := value self + amount |} in
  (self', value self').

Definition get_value (self : t) : Z := value self.

(** [add(a1); ...; add(an)] in order, results discarded. *)
Definition add_all (self : t) (amounts : list Z) : t :=
  fold_left (fun s a => fst (add s a)) amounts self.

End Calculator.

(** ** examples/advanced_example.py *)

(** A Python number: the summary holds ints and, for the mean, a float. *)
Inductive number : Type :=
| PyInt (n : Z)
| PyFloat (f : spec_float).

Module DataProcessor.

Record t : Type := { name : string; data : list Z; processed : bool }.

Definition __init__ (name : string) : t :=
  {| name := name; data := []; processed := false |}.

Definition add_item (self : t) (item : Z) : t :=
  {| name := name self; data := data self ++ [item];
     processed := processed self |}.

(** One turn of the loop body of [process_data]. *)
Definition process_item (result : list Z) (item : Z) : list Z :=
  if 0 <? item then result ++ [item * 2] else result.

(** [process_data]: the object after the call and the returned list.
    On empty data the method returns before it touches the flag. *)
Definition process_data (self : t) : t * list Z :=
  match data self with
  | [] => (self, [])
  | _ :: _ =>
      let result := fold_left process_item (data self) [] in
      ({| name := name self; data := data self; processed := true |},
       result)
  end.

(** [get_statistics]: the object after the call and the dict it returns,
    or the exception that escapes. *)
Definition get_statistics (self : t) : t * outcome (gmap string number) :=
  let self := if negb (processed self) then fst (process_data self) else self in
  let total := Py.sum (data self) in
  let count := Py.len (data self) in
  (self,
   average ← (if 0 <? count then PyFloat <$> Py.true_div total count
              else Ok (PyInt 0));
   mx ← (match data self with
         | [] => Ok 0
         | _ :: _ => Py.max (data self)
         end);
   Ok (<["max"%string := PyInt mx]>
       (<["average"%string := average]>
        (<["count"%string := PyInt count]>
         (<["total"%string := PyInt total]> ∅))))).

(** The calls a client can make on a processor. *)
Inductive call : Type :=
| AddItem (item : Z)
| ProcessData
| GetStatistics.

Definition step (self : t) (c : call) : t :=
  match c with
  | AddItem item => add_item self item
  | ProcessData => fst (process_data self)
  | GetStatistics => fst (get_statistics self)
  end.

(** The object after a sequence of calls. *)
Definition run (self : t) (cs : list call) : t := fold_left step cs self.

(** A state is reachable when some sequence of calls leads to it from a
    freshly constructed processor. *)
Definition reachable (s : t) : Prop :=
  exists nm cs, s = run (__init__ nm) cs.

End DataProcessor.

Definition create_processor (name : string) (initial_data : option (list Z))
  : DataProcessor.t :=
  let processor := DataProcessor.__init__ name in
  match initial_data with
  | None | Some [] => processor
  | Some ((_ :: _) as items) => fold_left DataProcessor.add_item items processor
  end.

(** ** examples/gui_example.py *)

Module SimpleGUI.

(** The only state the handlers touch is the text of [result_var]. *)
Record t : Type := { result_var : string }.

(** A modal dialog shown by [messagebox]. *)
Inductive dialog : Type :=
| showerror (title message : string).

(** [number_click(num)] for a keypad digit: appends [str(num)]. *)
Definition number_click (self : t) (num : Z) : t :=
{| result_var := (result_var self ++ pretty num)%string |}.

Definition operation_click (self : t) (op : string) : t :=
  {| result_var := (result_var self ++ " " ++ op ++ " ")%string |}.

Definition clear (self : t) : t := {| result_var := ""%string |}.

(** What a button does when pressed (its [command=] argument). *)
Inductive command : Type :=
| CmdNumber (x : Z)
| CmdOperation (op : string)
| CmdCalculate
| CmdClear.

(** Running the handler bound to a button, for the three handlers that
    only edit the display.  [=] runs [calculate], which hands the display
    to [eval] and so acts on the whole process (see [calculate] below): it
    has no result in terms of the display alone. *)
Definition press (self : t) (c : command) : option (t * list dialog) :=
  match c with
  | CmdNumber x => Some (number_click self x, [])
  | CmdOperation op => Some (operation_click self op, [])
  | CmdCalculate => None
  | CmdClear => Some (clear self, [])
  end.

(** A sequence of button presses: the display at the end and every dialog
    shown on the way, in order. *)
Fixpoint presses (self : t) (cs : list command) : option (t * list dialog) :=
  match cs with
  | [] => Some (self, [])
  | c :: rest =>
      match press self c with
      | Some (s1, d1) =>
          match presses s1 rest with
          | Some (s2, d2) => Some (s2, d1 ++ d2)
          | None => None
          end
      | None => None
      end
  end.

(** An action on the state of the whole process: it leaves a state behind
    and returns or raises. *)
Definition action (W A : Type) : Type := W -> W * outcome A.

#[global] Instance action_ret {W : Type} : MRet (action W) :=
  fun A a w => (w, Ok a).

#[global] Instance action_bind {W : Type} : MBind (action W) :=
  fun A B k m w =>
    match m w with
    | (w', Ok a) => k a w'
    | (w', Raise e) => (w', Raise e)
    end.

(** [try: body except: handler], with a bare [except]: whatever [body]
    raises is caught, and [handler] runs in the state [body] left. *)
Definition try_except {W A : Type} (body handler : action W A) : action W A :=
  fun w =>
    match body w with
    | (w', Ok a) => (w', Ok a)
    | (w', Raise _) => handler w'
    end.

Section Calculate.

(** [calculate] calls five things it does not define:
    [self.result_var.get], the builtin [eval], the builtin [str],
    [self.result_var.set] and [messagebox.showerror].  The text handed to
    [eval] runs in the frame of [calculate]: it can write the display,
    show dialogs, and rebind [self.result_var], the handlers or
    [messagebox].  So each of the five is an arbitrary action on the state
    of the whole process, [world]. *)
Context {world pyobj : Type}.
Variable get : action world string.
Variable eval : string -> action world pyobj.
Variable str : pyobj -> action world string.
Variable set : string -> action world unit.
Variable showerror : string -> string -> action world unit.

(** The body of the [try] block. *)
Definition guarded : action world unit :=
  expression ← get;
  result ← eval expression;
  text ← str result;
  set text.

(** [calculate]. *)
Definition calculate : action world unit :=
  try_except guarded (showerror "Error"%string "Invalid expression"%string).

End Calculate.

(** A button of [create_widgets]: its label, its grid cell and its
    command. *)
Record button : Type :=
  { text : string; row : Z; column : Z; on_click : command }.

(** The button made by turn [i] of the loop over [range(10)]; the default
    argument [x=i] of the lambda fixes the digit at that turn. *)
Definition digit_button (i : Z) : button :=
  {| text := pretty i;
     row := (9 - i) `div` 3;
     column := (9 - i) `mod` 3;
     on_click := CmdNumber i |}.

Definition plus_btn : button :=
  {| text := "+"; row := 0; column := 3; on_click := CmdOperation "+" |}.

Definition equals_btn : button :=
  {| text := "="; row := 1; column := 3; on_click := CmdCalculate |}.

Definition clear_btn : button :=
  {| text := "C"; row := 2; column := 3; on_click := CmdClear |}.

(** The buttons [create_widgets] puts on the grid, in creation order. *)
Definition create_widgets : list button :=
  map digit_button (seqZ 0 10) ++ [plus_btn; equals_btn; clear_btn].

End SimpleGUI.

(** * Properties *)

(** ** Sums and sorting *)

(** The arithmetic sum of a list, by recursion on the list. *)
Fixpoint arith_sum (xs : list Z) : Z :=
  match xs with
  | [] => 0
  | x :: rest => x + arith_sum rest
  end.

Lemma fold_add_arith_sum (xs : list Z) (acc : Z) :
  fold_left Z.add xs acc = acc + arith_sum xs.
Proof.
  revert acc. induction xs as [|x xs IH]; intros acc; simpl.
  - lia.
  - rewrite IH. lia.
Qed.

Lemma py_sum_arith_sum (xs : list Z) : Py.sum xs = arith_sum xs.
Proof. unfold Py.sum. rewrite fold_add_arith_sum. lia. Qed.

Lemma arith_sum_app (xs ys : list Z) :
  arith_sum (xs ++ ys) = arith_sum xs + arith_sum ys.
Proof. induction xs as [|x xs IH]; simpl; lia. Qed.

Lemma arith_sum_Permutation (xs ys : list Z) :
  xs ≡ₚ ys -> arith_sum xs = arith_sum ys.
Proof. induction 1; simpl; lia. Qed.

Lemma sort_Sorted (xs : list Z) : Sorted Z.le (Py.sort xs).
Proof. unfold Py.sort. apply (Sorted_merge_sort Z.le). Qed.

Lemma sort_Permutation (xs : list Z) : Py.sort xs ≡ₚ xs.
Proof. unfold Py.sort. apply (merge_sort_Permutation Z.le). Qed.

(** Any ascending rearrangement of [xs] is the list [Py.sort] computes:
    the model does not depend on the sorting algorithm. *)
Lemma sort_unique (xs ys : list Z) :
  Sorted Z.le ys -> ys ≡ₚ xs -> ys = Py.sort xs.
Proof.
  intros Hs Hp. apply (Sorted_unique Z.le).
  - exact Hs.
  - apply sort_Sorted.
  - rewrite Hp. symmetry. apply sort_Permutation.
Qed.

Lemma sort_fixed_iff (xs : list Z) : Py.sort xs = xs <-> Sorted Z.le xs.
Proof.
  split.
  - intros E. rewrite <- E. apply sort_Sorted.
  - intros Hs. symmetry. now apply sort_unique.
Qed.

Lemma process_list_eq (numbers : loc) (h : store) (ns : list Z) :
  h !! numbers = Some ns ->
  process_list numbers h
  = Some (<[numbers := Py.sort ns]> h, Py.sum (Py.sort ns)).
Proof.
  intros Hl. unfold process_list. rewrite Hl. simpl.
  now rewrite lookup_insert_eq.
Qed.

(** ** dist/examples/example.py *)

Lemma add_all_value (s : Calculator.t) (amounts : list Z) :
  Calculator.value (Calculator.add_all s amounts)
  = Calculator.value s + arith_sum amounts.
Proof.
  unfold Calculator.add_all. revert s.
  induction amounts as [|a amounts IH]; intros s; simpl.
  - lia.
  - rewrite IH. simpl. lia.
Qed.

(** C4: for every initial value [v] and every finite sequence of integers
    [amounts], constructing [Calculator(v)] and calling [add] on each
    amount in order leaves [get_value] returning [v] plus the sum of the
    amounts. *)
Theorem calculator_add_sequence (v : Z) (amounts : list Z) :
  Calculator.get_value (Calculator.add_all (Calculator.__init__ v) amounts)
  = v + arith_sum amounts.
Proof. unfold Calculator.get_value. now rewrite add_all_value. Qed.

(** Each [add] also returns the value [get_value] would report next. *)
Lemma add_returns_value (s : Calculator.t) (amount : Z) :
  snd (Calculator.add s amount)
  = Calculator.get_value (fst (Calculator.add s amount)).
Proof. reflexivity. Qed.

(** C5: for every list of integers [ns] passed to it, [process_list]
    returns the arithmetic sum of the elements of [ns]; summing the sorted
    list gives the same value as summing the original list. *)
Theorem process_list_returns_sum (numbers : loc) (h : store) (ns : list Z) :
  h !! numbers = Some ns ->
  (exists h', process_list numbers h = Some (h', arith_sum ns))
  /\ Py.sum (Py.sort ns) = Py.sum ns.
Proof.
  intros Hl.
  assert (E : Py.sum (Py.sort ns) = Py.sum ns).
  { rewrite !py_sum_arith_sum.
    apply arith_sum_Permutation, sort_Permutation. }
  split; [|exact E].
  exists (<[numbers := Py.sort ns]> h).
  rewrite (process_list_eq _ _ _ Hl), E.
  now rewrite py_sum_arith_sum.
Qed.

Lemma process_list_returns_sum_witness :
  ({[ 1%positive := [3; 1; 2] ]} : store) !! 1%positive = Some [3; 1; 2]
  /\ ((exists h', process_list 1%positive {[ 1%positive := [3; 1; 2] ]}
                  = Some (h', arith_sum [3; 1; 2]))
      /\ Py.sum (Py.sort [3; 1; 2]) = Py.sum [3; 1; 2]).
Proof.
  split; [reflexivity|].
  apply (process_list_returns_sum 1%positive {[ 1%positive := [3; 1; 2] ]}).
  reflexivity.
Defined.

(** C8: [process_list] mutates its argument.  After the call the list
    object the caller passed holds the ascending rearrangement of its
    original contents; every other list object is untouched; and the
    caller's list is the same as before only when it was sorted already. *)
Theorem process_list_sorts_in_place (numbers : loc) (h : store) (ns : list Z) :
  h !! numbers = Some ns ->
  exists h' r sorted,
    process_list numbers h = Some (h', r)
    /\ h' !! numbers = Some sorted
    /\ Sorted Z.le sorted
    /\ sorted ≡ₚ ns
    /\ (sorted = ns <-> Sorted Z.le ns)
    /\ (forall other, other <> numbers -> h' !! other = h !! other).
Proof.
  intros Hl.
  exists (<[numbers := Py.sort ns]> h), (Py.sum (Py.sort ns)), (Py.sort ns).
  split; [now apply process_list_eq|].
  split; [apply lookup_insert_eq|].
  split; [apply sort_Sorted|].
  split; [apply sort_Permutation|].
  split; [apply sort_fixed_iff|].
  intros other Hne. now apply lookup_insert_ne.
Qed.

Lemma process_list_sorts_in_place_witness :
  ({[ 7%positive := [3; 1; 2] ]} : store) !! 7%positive = Some [3; 1; 2]
  /\ exists h' r sorted,
      process_list 7%positive {[ 7%positive := [3; 1; 2] ]} = Some (h', r)
      /\ h' !! 7%positive = Some sorted
      /\ Sorted Z.le sorted
      /\ sorted ≡ₚ [3; 1; 2]
      /\ (sorted = [3; 1; 2] <-> Sorted Z.le [3; 1; 2])
      /\ (forall other, other <> 7%positive ->
          h' !! other = ({[ 7%positive := [3; 1; 2] ]} : store) !! other).
Proof.
  split; [reflexivity|].
  apply (process_list_sorts_in_place 7%positive {[ 7%positive := [3; 1; 2] ]}).
  reflexivity.
Defined.

(** On [[3; 1; 2]] the caller sees [[1; 2; 3]] after the call, also through
    a second name for the same object. *)
Example process_list_aliasing :
  let caller := 7%positive in
  let alias := caller in
  match process_list caller {[ caller := [3; 1; 2] ]} with
  | Some (h', r) => h' !! alias = Some [1; 2; 3] /\ r = 6
  | None => False
  end.
Proof. vm_compute. split; reflexivity. Qed.

(** ** examples/advanced_example.py: [process_data] *)

(** The list [[2*x for x in ds if x > 0]]. *)
Definition doubled_positives (ds : list Z) : list Z :=
  map (fun x => 2 * x) (filter (fun x => 0 < x) ds).

(** How many entries of [ds] are strictly positive. *)
Fixpoint count_positive (ds : list Z) : nat :=
  match ds with
  | [] => O
  | x :: rest => if 0 <? x then S (count_positive rest) else count_positive rest
  end.

Lemma doubled_positives_cons (x : Z) (ds : list Z) :
  doubled_positives (x :: ds)
  = if 0 <? x then 2 * x :: doubled_positives ds else doubled_positives ds.
Proof.
  unfold doubled_positives. rewrite filter_cons.
  destruct (Z.ltb_spec 0 x); case_decide; try lia; reflexivity.
Qed.

(** The loop of [process_data] appends the doubled positives to whatever
    the result list held before. *)
Lemma process_loop (ds acc : list Z) :
  fold_left DataProcessor.process_item ds acc = acc ++ doubled_positives ds.
Proof.
  revert acc. induction ds as [|x ds IH]; intros acc.
  - simpl. now rewrite app_nil_r.
  - simpl. rewrite IH, doubled_positives_cons.
    unfold DataProcessor.process_item.
    destruct (0 <? x).
    + rewrite <- app_assoc. simpl. now replace (x * 2) with (2 * x) by lia.
    + reflexivity.
Qed.

Lemma length_doubled_positives (ds : list Z) :
  length (doubled_positives ds) = count_positive ds.
Proof.
  induction ds as [|x ds IH]; [reflexivity|].
  rewrite doubled_positives_cons. simpl.
  destruct (0 <? x); simpl; now rewrite IH.
Qed.

Lemma process_data_result (self : DataProcessor.t) :
  snd (DataProcessor.process_data self)
  = doubled_positives (DataProcessor.data self).
Proof.
  unfold DataProcessor.process_data.
  destruct (DataProcessor.data self) as [|x ds] eqn:E; [reflexivity|].
  cbn [snd]. now rewrite process_loop.
Qed.

Lemma process_data_data (self : DataProcessor.t) :
  DataProcessor.data (fst (DataProcessor.process_data self))
  = DataProcessor.data self.
Proof.
  unfold DataProcessor.process_data.
  destruct (DataProcessor.data self) eqn:E; [exact E | reflexivity].
Qed.

(** C1: for every processor, [process_data] returns exactly the list of
    [2*x] for the entries [x > 0] of its data, in the order of the data;
    on empty data it returns the empty list. *)
Theorem process_data_doubles_positives :
  (forall self : DataProcessor.t,
      snd (DataProcessor.process_data self)
      = doubled_positives (DataProcessor.data self))
  /\ (forall (nm : string) (flag : bool),
         snd (DataProcessor.process_data
                {| DataProcessor.name := nm; DataProcessor.data := [];
                   DataProcessor.processed := flag |}) = []).
Proof. split; [apply process_data_result | reflexivity]. Qed.

(** The order of the data is kept: the result of a concatenation is the
    concatenation of the results. *)
Lemma doubled_positives_app (xs ys : list Z) :
  doubled_positives (xs ++ ys) = doubled_positives xs ++ doubled_positives ys.
Proof. unfold doubled_positives. now rewrite filter_app, map_app. Qed.

Example process_data_mixed :
  snd (DataProcessor.process_data
         (create_processor "p" (Some [3; -1; 0; 5; -7; 1])))
  = [6; 10; 2].
Proof. vm_compute. reflexivity. Qed.

(** C7: the list returned by [process_data] has as many items as the data
    has strictly positive entries. *)
Theorem process_data_length (self : DataProcessor.t) :
  length (snd (DataProcessor.process_data self))
  = count_positive (DataProcessor.data self).
Proof. rewrite process_data_result. apply length_doubled_positives. Qed.

(** ** examples/advanced_example.py: [get_statistics] *)

(** The dict built from the four values of [get_statistics]. *)
Definition summary_dict (total count : Z) (average : number) (mx : Z)
  : gmap string number :=
  <["max"%string := PyInt mx]>
    (<["average"%string := average]>
       (<["count"%string := PyInt count]>
          (<["total"%string := PyInt total]> ∅))).

(** What [get_statistics] computes, as a function of the data alone. *)
Definition statistics (ds : list Z) : outcome (gmap string number) :=
  average ← (if 0 <? Py.len ds then PyFloat <$> Py.true_div (Py.sum ds) (Py.len ds)
             else Ok (PyInt 0));
  mx ← (match ds with [] => Ok 0 | _ :: _ => Py.max ds end);
  Ok (summary_dict (Py.sum ds) (Py.len ds) average mx).

Lemma get_statistics_data (self : DataProcessor.t) :
  DataProcessor.data (fst (DataProcessor.get_statistics self))
  = DataProcessor.data self.
Proof.
  unfold DataProcessor.get_statistics. cbn [fst].
  destruct (negb (DataProcessor.processed self));
    [apply process_data_data | reflexivity].
Qed.

Lemma get_statistics_result (self : DataProcessor.t) :
  snd (DataProcessor.get_statistics self)
  = statistics (DataProcessor.data self).
Proof.
  unfold DataProcessor.get_statistics, statistics, summary_dict. cbn [snd].
  destruct (negb (DataProcessor.processed self));
    [rewrite process_data_data|]; reflexivity.
Qed.

(** [m] is the greatest element of [ds]. *)
Definition is_maximum (m : Z) (ds : list Z) : Prop :=
  m ∈ ds /\ Forall (fun x => x <= m) ds.

Lemma max_scan (rest : list Z) (x : Z) :
  let m := fold_left (fun m y => if m <? y then y else m) rest x in
  x <= m /\ Forall (fun y => y <= m) rest /\ (m = x \/ m ∈ rest).
Proof.
  revert x. induction rest as [|y rest IH]; intros x; simpl.
  - split; [lia|]. split; [constructor | now left].
  - destruct (IH (if x <? y then y else x)) as (Hle & Hall & Hin).
    destruct (Z.ltb_spec x y) as [Hlt|Hge].
    + split; [lia|]. split; [constructor; [exact Hle | exact Hall]|].
      right. destruct Hin as [->|Hin]; [left | now right].
    + split; [exact Hle|]. split; [constructor; [lia | exact Hall]|].
      destruct Hin as [Hin|Hin]; [now left | right; now right].
Qed.

Lemma py_max_is_maximum (x : Z) (rest : list Z) :
  exists m, Py.max (x :: rest) = Ok m /\ is_maximum m (x :: rest).
Proof.
  destruct (max_scan rest x) as (Hle & Hall & Hin).
  eexists. split; [reflexivity|]. split.
  - destruct Hin as [->|Hin]; [left | now right].
  - constructor; [exact Hle | exact Hall].
Qed.

(** With a divisor that is not zero, true division yields a float or
    overflows; it raises nothing else. *)
Lemma true_div_cases (a b : Z) :
  b <> 0 ->
  Py.true_div a b = Raise OverflowError \/ exists q, Py.true_div a b = Ok q.
Proof.
  intros Hb. unfold Py.true_div.
  destruct (Z.eqb_spec b 0) as [->|_]; [lia|].
  destruct (SFdiv Py.prec Py.emax (Py.float_of_int a) (Py.float_of_int b));
    eauto.
Qed.

(** The summary the description promises for data [ds]: the total is the
    sum, the count is the length, the average is the total divided by the
    count when the count is positive and [0] otherwise, the maximum is the
    greatest element when there is one and [0] otherwise. *)
Definition summary_of (ds : list Z) (d : gmap string number) : Prop :=
  d !! "total"%string = Some (PyInt (arith_sum ds))
  /\ d !! "count"%string = Some (PyInt (Z.of_nat (length ds)))
  /\ (if 0 <? Z.of_nat (length ds)
      then exists q, Py.true_div (arith_sum ds) (Z.of_nat (length ds)) = Ok q
                     /\ d !! "average"%string = Some (PyFloat q)
      else d !! "average"%string = Some (PyInt 0))
  /\ match ds with
     | [] => d !! "max"%string = Some (PyInt 0)
     | _ :: _ => exists m, is_maximum m ds /\ d !! "max"%string = Some (PyInt m)
     end.

Lemma summary_dict_lookups (total count : Z) (average : number) (mx : Z) :
  let d := summary_dict total count average mx in
  d !! "total"%string = Some (PyInt total)
  /\ d !! "count"%string = Some (PyInt count)
  /\ d !! "average"%string = Some average
  /\ d !! "max"%string = Some (PyInt mx).
Proof. unfold summary_dict. repeat split; by simplify_map_eq. Qed.

Lemma statistics_nonempty_ok (x : Z) (rest : list Z) (q : spec_float) :
  Py.true_div (Py.sum (x :: rest)) (Py.len (x :: rest)) = Ok q ->
  exists d, statistics (x :: rest) = Ok d /\ summary_of (x :: rest) d.
Proof.
  intros Hq.
  destruct (py_max_is_maximum x rest) as (m & Hm & Hmax).
  exists (summary_dict (Py.sum (x :: rest)) (Py.len (x :: rest)) (PyFloat q) m).
  split.
  - unfold statistics.
    replace (0 <? Py.len (x :: rest)) with true
      by (symmetry; apply Z.ltb_lt; unfold Py.len; simpl length; lia).
    rewrite Hq, Hm. reflexivity.
  - rewrite py_sum_arith_sum in *. unfold Py.len in *.
    destruct (summary_dict_lookups (arith_sum (x :: rest))
                (Z.of_nat (length (x :: rest))) (PyFloat q) m)
      as (Ht & Hc & Ha & Hx).
    split; [exact Ht|]. split; [exact Hc|]. split.
    + replace (0 <? Z.of_nat (length (x :: rest))) with true
        by (symmetry; apply Z.ltb_lt; simpl length; lia).
      exists q. split; [exact Hq | exact Ha].
    + exists m. split; [exact Hmax | exact Hx].
Qed.

Lemma statistics_nonempty_overflow (x : Z) (rest : list Z) :
  Py.true_div (Py.sum (x :: rest)) (Py.len (x :: rest)) = Raise OverflowError ->
  statistics (x :: rest) = Raise OverflowError.
Proof.
  intros Hq. unfold statistics.
  replace (0 <? Py.len (x :: rest)) with true
    by (symmetry; apply Z.ltb_lt; unfold Py.len; simpl length; lia).
  now rewrite Hq.
Qed.

Lemma statistics_empty :
  statistics [] = Ok (summary_dict 0 0 (PyInt 0) 0).
Proof. reflexivity. Qed.

(** The processor the client builds from one item, [2 ** 1024]. *)
Definition huge_processor : DataProcessor.t :=
  create_processor "huge" (Some [2 ^ 1024]).

(** Counterexample to C2 as stated: on the single item [2 ** 1024] the
    quotient [total / count] does not fit a float, so [get_statistics]
    raises [OverflowError] and returns no summary at all. *)
Lemma get_statistics_overflow :
  snd (DataProcessor.get_statistics huge_processor) = Raise OverflowError
  /\ ~ (exists d, snd (DataProcessor.get_statistics huge_processor) = Ok d
                  /\ summary_of (DataProcessor.data huge_processor) d).
Proof.
  assert (E : snd (DataProcessor.get_statistics huge_processor)
              = Raise OverflowError) by (vm_compute; reflexivity).
  split; [exact E|].
  intros (d & Hd & _). rewrite E in Hd. discriminate Hd.
Qed.

(** C2 (amended): for every processor with data [ds], [get_statistics]
    either returns a summary whose total is the sum of [ds], whose count is
    the length of [ds], whose average is the float [total / count] when the
    count is positive and the integer [0] otherwise, and whose max is the
    greatest element of [ds] when [ds] is not empty and [0] otherwise; or
    [ds] is not empty, [total / count] is too large for a float, and the
    call raises [OverflowError].  The data is left as it was. *)
Theorem get_statistics_summary (self : DataProcessor.t) :
  let ds := DataProcessor.data self in
  DataProcessor.data (fst (DataProcessor.get_statistics self)) = ds
  /\ ((exists d, snd (DataProcessor.get_statistics self) = Ok d
                 /\ summary_of ds d)
      \/ (snd (DataProcessor.get_statistics self) = Raise OverflowError
          /\ ds <> []
          /\ Py.true_div (arith_sum ds) (Z.of_nat (length ds))
             = Raise OverflowError)).
Proof.
  intros ds. split; [apply get_statistics_data|].
  rewrite get_statistics_result. fold ds.
  destruct ds as [|x rest].
  - left. exists (summary_dict 0 0 (PyInt 0) 0).
    split; [apply statistics_empty|].
    unfold summary_of, summary_dict. simpl. repeat split; by simplify_map_eq.
  - destruct (true_div_cases (Py.sum (x :: rest)) (Py.len (x :: rest)))
      as [Hov|(q & Hq)].
    + unfold Py.len. simpl length. lia.
    + right. split; [now apply statistics_nonempty_overflow|].
      split; [discriminate|].
      rewrite <- py_sum_arith_sum. exact Hov.
    + left. now apply (statistics_nonempty_ok x rest q).
Qed.

Example get_statistics_main :
  snd (DataProcessor.get_statistics
         (create_processor "Main Processor" (Some [1; 2; 3; 4; 5])))
  = Ok (summary_dict 15 5
          (PyFloat (S754_finite false 6755399441055744 (-51))) 5).
Proof. vm_compute. reflexivity. Qed.

(** C10: on a processor with empty data [get_statistics] raises nothing:
    neither the division nor the maximum is evaluated, and the summary is
    total 0, count 0, average 0, max 0. *)
Theorem get_statistics_empty (self : DataProcessor.t) :
  DataProcessor.data self = [] ->
  snd (DataProcessor.get_statistics self)
  = Ok (summary_dict 0 0 (PyInt 0) 0)
  /\ fst (DataProcessor.get_statistics self) = self.
Proof.
  intros E. split.
  - rewrite get_statistics_result, E. apply statistics_empty.
  - unfold DataProcessor.get_statistics, DataProcessor.process_data.
    cbn [fst]. rewrite E.
    now destruct (negb (DataProcessor.processed self)).
Qed.

Lemma get_statistics_empty_witness :
  DataProcessor.data (DataProcessor.__init__ "fresh") = []
  /\ (snd (DataProcessor.get_statistics (DataProcessor.__init__ "fresh"))
      = Ok (summary_dict 0 0 (PyInt 0) 0)
      /\ fst (DataProcessor.get_statistics (DataProcessor.__init__ "fresh"))
         = DataProcessor.__init__ "fresh").
Proof.
  split; [reflexivity|].
  apply (get_statistics_empty (DataProcessor.__init__ "fresh")).
  reflexivity.
Defined.

(** What the guards avoid: without them the empty list would raise. *)
Example unguarded_empty :
  Py.true_div (Py.sum []) (Py.len []) = Raise ZeroDivisionError
  /\ Py.max [] = Raise ValueError.
Proof. split; reflexivity. Qed.

(** ** examples/advanced_example.py: the [processed] flag *)

(** The call [c], made in state [s], executes the body of [process_data]:
    directly, or from [get_statistics] when the flag is not set. *)
Definition invokes_process_data (s : DataProcessor.t) (c : DataProcessor.call)
  : bool :=
  match c with
  | DataProcessor.AddItem _ => false
  | DataProcessor.ProcessData => true
  | DataProcessor.GetStatistics => negb (DataProcessor.processed s)
  end.

(** Along the calls [cs] made from [s0], [process_data] has run. *)
Definition pass_has_run (s0 : DataProcessor.t) (cs : list DataProcessor.call)
  : Prop :=
  exists cs1 c cs2,
    cs = cs1 ++ c :: cs2
    /\ invokes_process_data (DataProcessor.run s0 cs1) c = true.

(** Along the calls [cs] made from [s0], [get_statistics] has been called
    and has returned its summary. *)
Definition summary_computed (s0 : DataProcessor.t) (cs : list DataProcessor.call)
  : Prop :=
  exists cs1 cs2 d,
    cs = cs1 ++ DataProcessor.GetStatistics :: cs2
    /\ snd (DataProcessor.get_statistics (DataProcessor.run s0 cs1)) = Ok d.

Definition nonempty (ds : list Z) : bool :=
  match ds with [] => false | _ :: _ => true end.

Lemma run_snoc (s : DataProcessor.t) (cs : list DataProcessor.call)
      (c : DataProcessor.call) :
  DataProcessor.run s (cs ++ [c])
  = DataProcessor.step (DataProcessor.run s cs) c.
Proof. unfold DataProcessor.run. now rewrite fold_left_app. Qed.

Lemma processed_process_data (s : DataProcessor.t) :
  DataProcessor.processed (fst (DataProcessor.process_data s))
  = DataProcessor.processed s || nonempty (DataProcessor.data s).
Proof.
  unfold DataProcessor.process_data.
  destruct (DataProcessor.data s); simpl.
  - now rewrite orb_false_r.
  - now rewrite orb_true_r.
Qed.

(** One call sets the flag exactly when it runs [process_data] on data
    that is not empty; no call clears it. *)
Lemma processed_step (s : DataProcessor.t) (c : DataProcessor.call) :
  DataProcessor.processed (DataProcessor.step s c)
  = DataProcessor.processed s
    || (invokes_process_data s c && nonempty (DataProcessor.data s)).
Proof.
  destruct c as [item| |]; simpl.
  - now rewrite orb_false_r.
  - apply processed_process_data.
  - unfold DataProcessor.get_statistics. cbn [fst].
    destruct (DataProcessor.processed s) eqn:E; simpl.
    + exact E.
    + rewrite processed_process_data, E. reflexivity.
Qed.

Lemma nonempty_true (ds : list Z) : nonempty ds = true <-> ds <> [].
Proof. destruct ds; simpl; split; congruence. Qed.

(** The flag after any sequence of calls. *)
Lemma processed_run (s : DataProcessor.t) (cs : list DataProcessor.call) :
  DataProcessor.processed (DataProcessor.run s cs) = true
  <-> DataProcessor.processed s = true
      \/ exists cs1 c cs2,
          cs = cs1 ++ c :: cs2
          /\ invokes_process_data (DataProcessor.run s cs1) c = true
          /\ DataProcessor.data (DataProcessor.run s cs1) <> [].
Proof.
  induction cs as [|c cs IH] using rev_ind.
  - simpl. split; [now left|].
    intros [H|(cs1 & c & cs2 & E & _)]; [exact H|].
    now destruct cs1.
  - rewrite run_snoc, processed_step, orb_true_iff, andb_true_iff,
      nonempty_true, IH.
    split.
    + intros [[H|(cs1 & c' & cs2 & E & Hi & Hd)]|[Hi Hd]].
      * now left.
      * right. exists cs1, c', (cs2 ++ [c]). subst cs.
        rewrite <- app_assoc. now split.
      * right. exists cs, c, []. now split.
    + intros [H|(cs1 & c' & cs2 & E & Hi & Hd)]; [left; now left|].
      destruct cs2 as [|x cs2 _] using rev_ind.
      * apply app_inj_tail in E as [-> ->]. now right.
      * left. right. exists cs1, c', cs2.
        rewrite app_comm_cons, app_assoc in E.
        apply app_inj_tail in E as [-> _]. now split.
Qed.

(** Counterexample to C3 as stated: on a fresh processor one call of
    [get_statistics] computes the summary, and runs [process_data] on the
    way, yet [processed] is still [False] afterwards, because
    [process_data] returns on empty data before it sets the flag.  So the
    flag is equivalent neither to "the summary has been computed" nor to
    "[process_data] has run". *)
Lemma processed_flag_not_summary :
  ~ (forall nm cs,
        DataProcessor.processed (DataProcessor.run (DataProcessor.__init__ nm) cs)
        = true
        <-> summary_computed (DataProcessor.__init__ nm) cs)
  /\ ~ (forall nm cs,
           DataProcessor.processed
             (DataProcessor.run (DataProcessor.__init__ nm) cs) = true
           <-> pass_has_run (DataProcessor.__init__ nm) cs).
Proof.
  split; intros H;
    destruct (H "p"%string [DataProcessor.GetStatistics]) as [_ Hback];
    (assert (Hflag : DataProcessor.processed
                       (DataProcessor.run (DataProcessor.__init__ "p")
                          [DataProcessor.GetStatistics]) = true);
     [apply Hback | discriminate Hflag]).
  - exists [], [], (summary_dict 0 0 (PyInt 0) 0). split; reflexivity.
  - exists [], DataProcessor.GetStatistics, []. split; reflexivity.
Qed.

(** In the other direction the flag is set by [process_data] alone: here
    it is [True] although [get_statistics] was never called. *)
Example processed_without_summary :
  let cs := [DataProcessor.AddItem 1; DataProcessor.ProcessData] in
  DataProcessor.processed (DataProcessor.run (DataProcessor.__init__ "p") cs)
  = true
  /\ ~ summary_computed (DataProcessor.__init__ "p") cs.
Proof.
  split; [reflexivity|].
  intros (cs1 & cs2 & d & E & _).
  destruct cs1 as [|a [|b [|c cs1]]]; simpl in E; discriminate E.
Qed.

(** C3 (amended): in every state reached from a fresh processor,
    [processed] is [True] only if [process_data] has run (directly or from
    [get_statistics]), and it is [True] whenever [process_data] has run
    at a moment when the data was not empty. *)
Theorem processed_flag_tracks_pass (nm : string) (cs : list DataProcessor.call) :
  let s0 := DataProcessor.__init__ nm in
  (DataProcessor.processed (DataProcessor.run s0 cs) = true ->
   pass_has_run s0 cs)
  /\ (forall cs1 c cs2,
         cs = cs1 ++ c :: cs2 ->
         invokes_process_data (DataProcessor.run s0 cs1) c = true ->
         DataProcessor.data (DataProcessor.run s0 cs1) <> [] ->
         DataProcessor.processed (DataProcessor.run s0 cs) = true).
Proof.
  intros s0. split.
  - intros H. apply processed_run in H as [H|(cs1 & c & cs2 & E & Hi & _)].
    + discriminate H.
    + exists cs1, c, cs2. now split.
  - intros cs1 c cs2 E Hi Hd. apply processed_run. right.
    exists cs1, c, cs2. now split.
Qed.

Lemma processed_flag_tracks_pass_witness :
  let cs := [DataProcessor.AddItem 1; DataProcessor.ProcessData] in
  DataProcessor.processed (DataProcessor.run (DataProcessor.__init__ "p") cs)
  = true
  /\ pass_has_run (DataProcessor.__init__ "p") cs.
Proof.
  split; [reflexivity|].
  apply (proj1 (processed_flag_tracks_pass "p"
                  [DataProcessor.AddItem 1; DataProcessor.ProcessData])).
  reflexivity.
Defined.

(** X7: a state invariant that needs no history: in every reachable state
    a set [processed] flag implies that the data is not empty, since the
    flag is set only on non-empty data and no call removes items. *)
Lemma reachable_processed_data (s : DataProcessor.t) :
  DataProcessor.reachable s ->
  DataProcessor.processed s = true -> DataProcessor.data s <> [].
Proof.
  intros (nm & cs & ->).
  induction cs as [|c cs IH] using rev_ind; [discriminate|].
  rewrite run_snoc.
  set (s := DataProcessor.run (DataProcessor.__init__ nm) cs) in *.
  rewrite processed_step, orb_true_iff, andb_true_iff, nonempty_true.
  intros Hflag.
  assert (Hd : DataProcessor.data s <> []) by (destruct Hflag as [H|[_ H]]; auto).
  destruct c as [item| |]; cbn [DataProcessor.step].
  - simpl. intros E. now apply app_eq_nil in E as [_ E].
  - now rewrite process_data_data.
  - now rewrite get_statistics_data.
Qed.

(** [create_processor] stores the initial items in their order; [None] and
    the empty list both give a processor without data. *)
Lemma create_processor_data (nm : string) (items : list Z) :
  DataProcessor.data (create_processor nm (Some items)) = items
  /\ DataProcessor.processed (create_processor nm (Some items)) = false.
Proof.
  assert (G : forall s,
             DataProcessor.data (fold_left DataProcessor.add_item items s)
             = DataProcessor.data s ++ items
             /\ DataProcessor.processed (fold_left DataProcessor.add_item items s)
                = DataProcessor.processed s).
  { induction items as [|i items IH]; intros s; simpl.
    - now rewrite app_nil_r.
    - destruct (IH (DataProcessor.add_item s i)) as [Hd Hp].
      rewrite Hd, Hp. simpl. now rewrite <- app_assoc. }
  destruct items as [|i items]; [now split|].
  unfold create_processor. apply (G (DataProcessor.__init__ nm)).
Qed.

(** ** examples/gui_example.py: [calculate] *)

(** The one dialog [calculate] itself can show. *)
Definition generic_error : SimpleGUI.dialog :=
  SimpleGUI.showerror "Error"%string "Invalid expression"%string.

Section CalculateProperties.

Context {world pyobj : Type}.
Variable get : SimpleGUI.action world string.
Variable eval : string -> SimpleGUI.action world pyobj.
Variable str : pyobj -> SimpleGUI.action world string.
Variable set : string -> SimpleGUI.action world unit.
Variable showerror : string -> string -> SimpleGUI.action world unit.

Let body := SimpleGUI.guarded get eval str set.
Let calc := SimpleGUI.calculate get eval str set showerror.
Let dialog := showerror "Error"%string "Invalid expression"%string.

(** The handler runs exactly when the body raises, in the state the body
    left; otherwise [calculate] is the body. *)
Lemma calculate_body_ok (w : world) :
  snd (body w) = Ok tt -> calc w = body w.
Proof.
  unfold calc, SimpleGUI.calculate, SimpleGUI.try_except. fold body.
  destruct (body w) as [w' [[]|e]]; simpl; [reflexivity | discriminate].
Qed.

Lemma calculate_body_raises (w : world) (e : exn) :
  snd (body w) = Raise e -> calc w = dialog (fst (body w)).
Proof.
  unfold calc, SimpleGUI.calculate, SimpleGUI.try_except. fold body.
  destruct (body w) as [w' [[]|e']]; simpl; [discriminate | reflexivity].
Qed.

(** The body, step by step. *)
Lemma guarded_get_raises (w w1 : world) (e : exn) :
  get w = (w1, Raise e) -> body w = (w1, Raise e).
Proof.
  intros H. unfold body, SimpleGUI.guarded, mbind, SimpleGUI.action_bind.
  now rewrite H.
Qed.

Lemma guarded_eval_raises (w w1 w2 : world) (expression : string) (e : exn) :
  get w = (w1, Ok expression) ->
  eval expression w1 = (w2, Raise e) ->
  body w = (w2, Raise e).
Proof.
  intros H1 H2. unfold body, SimpleGUI.guarded, mbind, SimpleGUI.action_bind.
  now rewrite H1, H2.
Qed.

Lemma guarded_str_raises (w w1 w2 w3 : world) (expression : string)
      (result : pyobj) (e : exn) :
  get w = (w1, Ok expression) ->
  eval expression w1 = (w2, Ok result) ->
  str result w2 = (w3, Raise e) ->
  body w = (w3, Raise e).
Proof.
  intros H1 H2 H3. unfold body, SimpleGUI.guarded, mbind, SimpleGUI.action_bind.
  now rewrite H1, H2, H3.
Qed.

Lemma guarded_reaches_set (w w1 w2 w3 : world) (expression : string)
      (result : pyobj) (text : string) :
  get w = (w1, Ok expression) ->
  eval expression w1 = (w2, Ok result) ->
  str result w2 = (w3, Ok text) ->
  body w = set text w3.
Proof.
  intros H1 H2 H3. unfold body, SimpleGUI.guarded, mbind, SimpleGUI.action_bind.
  now rewrite H1, H2, H3.
Qed.

(** How far the body gets: one of the first three steps raises, or
    [set] is reached with the string form of the result. *)
Lemma guarded_cases (w : world) :
  (exists w1 e, get w = (w1, Raise e))
  \/ (exists w1 expression w2 e,
         get w = (w1, Ok expression) /\ eval expression w1 = (w2, Raise e))
  \/ (exists w1 expression w2 result w3 e,
         get w = (w1, Ok expression) /\ eval expression w1 = (w2, Ok result)
         /\ str result w2 = (w3, Raise e))
  \/ (exists w1 expression w2 result w3 text,
         get w = (w1, Ok expression) /\ eval expression w1 = (w2, Ok result)
         /\ str result w2 = (w3, Ok text)).
Proof.
  destruct (get w) as [w1 [expression|e]] eqn:E1; [|left; eauto].
  destruct (eval expression w1) as [w2 [result|e]] eqn:E2;
    [|right; left; eauto 8].
  destruct (str result w2) as [w3 [text|e]] eqn:E3.
  - right; right; right. exists w1, expression, w2, result, w3, text. auto.
  - right; right; left. exists w1, expression, w2, result, w3, e. auto.
Qed.

Lemma calculate_after_raise (w w' : world) (e : exn) :
  body w = (w', Raise e) -> calc w = dialog w'.
Proof.
  intros H. rewrite (calculate_body_raises w e); now rewrite H.
Qed.

Lemma calculate_reaches_set (w w1 w2 w3 : world) (expression : string)
      (result : pyobj) (text : string) :
  get w = (w1, Ok expression) ->
  eval expression w1 = (w2, Ok result) ->
  str result w2 = (w3, Ok text) ->
  calc w = SimpleGUI.try_except (set text) dialog w3.
Proof.
  intros H1 H2 H3.
  unfold calc, SimpleGUI.calculate, SimpleGUI.try_except at 1. fold body dialog.
  rewrite (guarded_reaches_set w w1 w2 w3 expression result text H1 H2 H3).
  reflexivity.
Qed.

End CalculateProperties.

(** *** A small process to run [calculate] on *)

(** A state with the three things the texts below touch: the text of the
    display, the dialogs shown so far, and whether [self.result_var] still
    names the display's variable. *)
Record sample_world : Type :=
  { sw_display : string;
    sw_shown : list SimpleGUI.dialog;
    sw_bound : bool }.

Definition sample_get : SimpleGUI.action sample_world string :=
  fun w =>
    if sw_bound w then (w, Ok (sw_display w))
    else (w, Raise (OtherException "AttributeError")).

Definition sample_set (text : string) : SimpleGUI.action sample_world unit :=
  fun w =>
    if sw_bound w
    then ({| sw_display := text; sw_shown := sw_shown w; sw_bound := true |},
          Ok tt)
    else (w, Raise (OtherException "AttributeError")).

Definition sample_showerror (title message : string)
  : SimpleGUI.action sample_world unit :=
  fun w =>
    ({| sw_display := sw_display w;
        sw_shown := sw_shown w ++ [SimpleGUI.showerror title message];
        sw_bound := sw_bound w |}, Ok tt).

(** [str] on ints, with CPython's default limit of 4300 digits on the
    conversion. *)
Definition int_str (n : Z) : outcome string :=
  if 10 ^ 4300 <=? Z.abs n then Raise ValueError else Ok (pretty n).

Definition sample_str (n : Z) : SimpleGUI.action sample_world string :=
  fun w => (w, int_str n).

(** The evaluator on a handful of display texts, with what each does to
    the process as Python runs it in the frame of [calculate]: a sum; a
    text that writes the display and then divides by zero; a text that
    rebinds [self.result_var] and evaluates to [1]; a text that shows the
    error dialog by itself and evaluates to [0].  Any other text here
    is a syntax error. *)
Definition sample_eval (expression : string) : SimpleGUI.action sample_world Z :=
  fun w =>
    if decide (expression = "1 + 1"%string) then (w, Ok 2)
    else if decide (expression = "self.result_var.set('x') or 1/0"%string)
    then ({| sw_display := "x"; sw_shown := sw_shown w; sw_bound := sw_bound w |},
          Raise ZeroDivisionError)
    else if decide (expression = "setattr(self, 'result_var', None) or 1"%string)
    then ({| sw_display := sw_display w; sw_shown := sw_shown w;
             sw_bound := false |}, Ok 1)
    else if decide (expression
                    = "messagebox.showerror('Error', 'Invalid expression') and 0"%string)
    then ({| sw_display := sw_display w;
             sw_shown := sw_shown w ++ [generic_error];
             sw_bound := sw_bound w |}, Ok 0)
    else (w, Raise (OtherException "SyntaxError")).

Definition sample_calculate : SimpleGUI.action sample_world unit :=
  SimpleGUI.calculate sample_get sample_eval sample_str sample_set
                      sample_showerror.

(** A freshly started calculator showing [text]. *)
Definition showing (text : string) : sample_world :=
  {| sw_display := text; sw_shown := []; sw_bound := true |}.

Example calculate_sum_display :
  sample_calculate (showing "1 + 1")
  = ({| sw_display := "2"; sw_shown := []; sw_bound := true |}, Ok tt).
Proof. vm_compute. reflexivity. Qed.

Example calculate_bad_display :
  sample_calculate (showing "1 + ")
  = ({| sw_display := "1 + "; sw_shown := [generic_error]; sw_bound := true |},
     Ok tt).
Proof. vm_compute. reflexivity. Qed.

(** The text brings up the error dialog by itself, and nothing fails. *)
Example dialog_from_the_text :
  let w := showing "messagebox.showerror('Error', 'Invalid expression') and 0" in
  snd (sample_eval (sw_display w) w) = Ok 0
  /\ sample_calculate w
     = ({| sw_display := "0"; sw_shown := [generic_error]; sw_bound := true |},
        Ok tt).
Proof. vm_compute. split; reflexivity. Qed.







(** * Further properties of the scripts *)

(** ** dist/examples/example.py: [Calculator] *)

(** The values returned by [add(a1)], ..., [add(an)], made in order. *)
Fixpoint add_returns (s : Calculator.t) (amounts : list Z) : list Z :=
  match amounts with
  | [] => []
  | a :: rest =>
      let r := Calculator.add s a in
      snd r :: add_returns (fst r) rest
  end.

(** X1: the [n]-th call of [add] returns the running total: the value the
    object had at the start plus the first [n+1] amounts. *)
Theorem calculator_running_totals
        (s : Calculator.t) (amounts : list Z) (n : nat) :
  (n < length amounts)%nat ->
  add_returns s amounts !! n
  = Some (Calculator.value s + arith_sum (take (S n) amounts)).
Proof.
  revert s n. induction amounts as [|a amounts IH]; intros s n Hn.
  - simpl in Hn. lia.
  - destruct n as [|n].
    + simpl. f_equal. lia.
    + simpl in Hn. simpl. rewrite IH by lia. simpl. f_equal. lia.
Qed.

Lemma calculator_running_totals_witness :
  (1 < length [5; -2; 10]%Z)%nat
  /\ add_returns (Calculator.__init__ 100) [5; -2; 10] !! 1%nat
     = Some (Calculator.value (Calculator.__init__ 100)
             + arith_sum (take 2%nat [5; -2; 10])).
Proof.
  split; [simpl; lia|].
  apply (calculator_running_totals (Calculator.__init__ 100) [5; -2; 10] 1%nat).
  simpl. lia.
Defined.

(** X2: the value after a sequence of additions does not depend on the
    order in which the amounts were added. *)
Theorem calculator_order_irrelevant
        (s : Calculator.t) (amounts amounts' : list Z) :
  amounts ≡ₚ amounts' ->
  Calculator.get_value (Calculator.add_all s amounts)
  = Calculator.get_value (Calculator.add_all s amounts').
Proof.
  intros Hp. unfold Calculator.get_value.
  rewrite !add_all_value. f_equal. now apply arith_sum_Permutation.
Qed.

Lemma calculator_order_irrelevant_witness :
  [1; 2; 3] ≡ₚ [3; 1; 2]
  /\ Calculator.get_value (Calculator.add_all (Calculator.__init__ 7) [1; 2; 3])
     = Calculator.get_value (Calculator.add_all (Calculator.__init__ 7) [3; 1; 2]).
Proof.
  assert (Hp : [1; 2; 3] ≡ₚ [3; 1; 2]).
  { change [3; 1; 2] with ([3] ++ [1; 2]). change [1; 2; 3] with ([1; 2] ++ [3]).
    apply Permutation_app_comm. }
  split; [exact Hp|].
  apply (calculator_order_irrelevant (Calculator.__init__ 7) [1; 2; 3] [3; 1; 2]).
  exact Hp.
Defined.

(** X3: adding an amount and then its negation restores the object, and
    the second call returns the value the object had before the first. *)
Theorem calculator_add_undo (s : Calculator.t) (amount : Z) :
  let s1 := fst (Calculator.add s amount) in
  fst (Calculator.add s1 (- amount)) = s
  /\ snd (Calculator.add s1 (- amount)) = Calculator.get_value s.
Proof.
  destruct s as [v]. simpl. unfold Calculator.get_value. simpl.
  split; [f_equal|]; lia.
Qed.

(** ** dist/examples/example.py: [process_list] *)

(** X4: a second call of [process_list] on the same list returns the same
    sum and leaves the store as the first call left it. *)
Theorem process_list_idempotent
        (numbers : loc) (h h' : store) (r : Z) :
  process_list numbers h = Some (h', r) ->
  process_list numbers h' = Some (h', r).
Proof.
  intros H. unfold process_list in H.
  destruct (h !! numbers) as [ns|] eqn:Hl; [|discriminate H].
  simpl in H. rewrite lookup_insert_eq in H. injection H as <- <-.
  rewrite (process_list_eq numbers (<[numbers := Py.sort ns]> h) (Py.sort ns))
    by apply lookup_insert_eq.
  assert (E : Py.sort (Py.sort ns) = Py.sort ns)
    by (apply sort_fixed_iff, sort_Sorted).
  rewrite E, insert_insert_eq. reflexivity.
Qed.

Lemma process_list_idempotent_witness :
  process_list 1%positive {[ 1%positive := [3; 1; 2] ]}
  = Some ({[ 1%positive := [1; 2; 3] ]}, 6)
  /\ process_list 1%positive {[ 1%positive := [1; 2; 3] ]}
     = Some ({[ 1%positive := [1; 2; 3] ]}, 6).
Proof.
  assert (E : process_list 1%positive {[ 1%positive := [3; 1; 2] ]}
              = Some ({[ 1%positive := [1; 2; 3] ]}, 6))
    by (vm_compute; reflexivity).
  split; [exact E|].
  apply (process_list_idempotent 1%positive {[ 1%positive := [3; 1; 2] ]}).
  exact E.
Defined.

(** X5: the order of the argument does not matter: on two lists with the
    same items in any order [process_list] returns the same sum and leaves
    the same list behind. *)
Theorem process_list_order_irrelevant
        (numbers : loc) (h1 h2 : store) (ns ms : list Z) :
  h1 !! numbers = Some ns ->
  h2 !! numbers = Some ms ->
  ns ≡ₚ ms ->
  exists h1' h2' r sorted,
    process_list numbers h1 = Some (h1', r)
    /\ process_list numbers h2 = Some (h2', r)
    /\ h1' !! numbers = Some sorted
    /\ h2' !! numbers = Some sorted.
Proof.
  intros H1 H2 Hp.
  assert (E : Py.sort ms = Py.sort ns).
  { apply sort_unique; [apply sort_Sorted|].
    rewrite sort_Permutation. now symmetry. }
  exists (<[numbers := Py.sort ns]> h1), (<[numbers := Py.sort ns]> h2),
    (Py.sum (Py.sort ns)), (Py.sort ns).
  split; [now apply process_list_eq|].
  split; [rewrite <- E; now apply process_list_eq|].
  split; apply lookup_insert_eq.
Qed.

Lemma process_list_order_irrelevant_witness :
  exists h1' h2' r sorted,
    process_list 1%positive {[ 1%positive := [2; 1] ]} = Some (h1', r)
    /\ process_list 1%positive {[ 1%positive := [1; 2] ]} = Some (h2', r)
    /\ h1' !! 1%positive = Some sorted
    /\ h2' !! 1%positive = Some sorted.
Proof.
  apply (process_list_order_irrelevant 1%positive
           {[ 1%positive := [2; 1] ]} {[ 1%positive := [1; 2] ]} [2; 1] [1; 2]).
  - reflexivity.
  - reflexivity.
  - apply perm_swap.
Defined.

(** ** examples/advanced_example.py: construction and the calls *)

(** X6: [create_processor] with no initial data, or with an empty list,
    gives a fresh processor; with a list of items it gives a processor of
    that name holding exactly those items in their order, not yet marked
    as processed. *)
Theorem create_processor_state (nm : string) (items : list Z) :
  create_processor nm None = DataProcessor.__init__ nm
  /\ create_processor nm (Some []) = DataProcessor.__init__ nm
  /\ create_processor nm (Some items)
     = {| DataProcessor.name := nm; DataProcessor.data := items;
          DataProcessor.processed := false |}.
Proof.
  split; [reflexivity|]. split; [reflexivity|].
  assert (G : forall s,
             fold_left DataProcessor.add_item items s
             = {| DataProcessor.name := DataProcessor.name s;
                  DataProcessor.data := DataProcessor.data s ++ items;
                  DataProcessor.processed := DataProcessor.processed s |}).
  { induction items as [|i items IH]; intros s.
    - simpl. rewrite app_nil_r. now destruct s.
    - simpl. rewrite IH. simpl. now rewrite <- app_assoc. }
  destruct items as [|i items]; [reflexivity|].
  unfold create_processor. now rewrite G.
Qed.

Lemma reachable_processed_data_witness :
  let s := DataProcessor.run (DataProcessor.__init__ "p")
             [DataProcessor.AddItem 1; DataProcessor.ProcessData] in
  DataProcessor.reachable s
  /\ DataProcessor.processed s = true
  /\ DataProcessor.data s <> [].
Proof.
  intros s.
  assert (Hr : DataProcessor.reachable s)
    by (exists "p"%string,
          [DataProcessor.AddItem 1; DataProcessor.ProcessData]; reflexivity).
  split; [exact Hr|]. split; [reflexivity|].
  apply (reachable_processed_data s Hr). reflexivity.
Defined.

(** X8: no call clears the flag: once [processed] is [True] it stays
    [True] through any further calls. *)
Theorem processed_monotone (s : DataProcessor.t) (cs : list DataProcessor.call) :
  DataProcessor.processed s = true ->
  DataProcessor.processed (DataProcessor.run s cs) = true.
Proof. intros H. apply processed_run. now left. Qed.

Lemma processed_monotone_witness :
  let s := {| DataProcessor.name := "p"; DataProcessor.data := [4];
              DataProcessor.processed := true |} in
  DataProcessor.processed s = true
  /\ DataProcessor.processed
       (DataProcessor.run s [DataProcessor.AddItem (-3);
                             DataProcessor.GetStatistics;
                             DataProcessor.ProcessData]) = true.
Proof.
  intros s. split; [reflexivity|].
  apply (processed_monotone s). reflexivity.
Defined.

(** The items handed to [add_item] along a sequence of calls, in order. *)
Definition added_items (cs : list DataProcessor.call) : list Z :=
  flat_map (fun c => match c with
                     | DataProcessor.AddItem item => [item]
                     | _ => []
                     end) cs.

Lemma process_data_name (s : DataProcessor.t) :
  DataProcessor.name (fst (DataProcessor.process_data s)) = DataProcessor.name s.
Proof.
  unfold DataProcessor.process_data.
  destruct (DataProcessor.data s); reflexivity.
Qed.

Lemma get_statistics_name (s : DataProcessor.t) :
  DataProcessor.name (fst (DataProcessor.get_statistics s)) = DataProcessor.name s.
Proof.
  unfold DataProcessor.get_statistics. cbn [fst].
  destruct (negb (DataProcessor.processed s));
    [apply process_data_name | reflexivity].
Qed.

(** X9: the data only grows, and only through [add_item]: after any
    sequence of calls the processor has its old name and its old data
    followed by the added items in the order they were added;
    [process_data] and [get_statistics] never change, drop or reorder an
    item. *)
Theorem run_name_and_data (s : DataProcessor.t) (cs : list DataProcessor.call) :
  DataProcessor.name (DataProcessor.run s cs) = DataProcessor.name s
  /\ DataProcessor.data (DataProcessor.run s cs)
     = DataProcessor.data s ++ added_items cs.
Proof.
  revert s. induction cs as [|c cs IH]; intros s.
  - simpl. now rewrite app_nil_r.
  - change (DataProcessor.run s (c :: cs))
      with (DataProcessor.run (DataProcessor.step s c) cs).
    destruct (IH (DataProcessor.step s c)) as [Hn Hd]. rewrite Hn, Hd.
    destruct c as [item| |]; cbn [DataProcessor.step].
    + simpl. now rewrite <- app_assoc.
    + now rewrite process_data_name, process_data_data.
    + now rewrite get_statistics_name, get_statistics_data.
Qed.

(** X10: [process_data] is idempotent: called again right away it returns
    the same list and leaves the object as the first call left it. *)
Theorem process_data_idempotent (s : DataProcessor.t) :
  DataProcessor.process_data (fst (DataProcessor.process_data s))
  = DataProcessor.process_data s.
Proof.
  destruct s as [nm ds flag]. unfold DataProcessor.process_data. simpl.
  destruct ds as [|x ds]; reflexivity.
Qed.

Lemma get_statistics_settled (s : DataProcessor.t) :
  fst (DataProcessor.get_statistics (fst (DataProcessor.get_statistics s)))
  = fst (DataProcessor.get_statistics s).
Proof.
  destruct s as [nm ds flag].
  unfold DataProcessor.get_statistics, DataProcessor.process_data. simpl.
  destruct flag, ds; reflexivity.
Qed.

(** X11: [get_statistics] is idempotent, and its result depends on the
    data alone: a second call returns what the first returned and changes
    nothing more, and a call of [process_data] in between makes no
    difference to the summary. *)
Theorem get_statistics_idempotent (s : DataProcessor.t) :
  DataProcessor.get_statistics (fst (DataProcessor.get_statistics s))
  = (fst (DataProcessor.get_statistics s), snd (DataProcessor.get_statistics s))
  /\ snd (DataProcessor.get_statistics (fst (DataProcessor.process_data s)))
     = snd (DataProcessor.get_statistics s).
Proof.
  split.
  - rewrite (surjective_pairing
               (DataProcessor.get_statistics
                  (fst (DataProcessor.get_statistics s)))).
    rewrite get_statistics_settled. f_equal.
    now rewrite !get_statistics_result, get_statistics_data.
  - now rewrite !get_statistics_result, process_data_data.
Qed.

(** ** examples/advanced_example.py: more on the results *)

Lemma doubled_positives_shape (ds : list Z) :
  Forall (fun y => 2 <= y /\ Z.even y = true) (doubled_positives ds).
Proof.
  induction ds as [|x ds IH]; [constructor|].
  rewrite doubled_positives_cons.
  destruct (Z.ltb_spec 0 x); [|exact IH].
  constructor; [|exact IH].
  split; [lia|]. rewrite Z.even_mul. reflexivity.
Qed.

Lemma count_positive_le (ds : list Z) : (count_positive ds <= length ds)%nat.
Proof.
  induction ds as [|x ds IH]; simpl; [lia|].
  destruct (0 <? x); lia.
Qed.

(** X12: every item [process_data] returns is an even integer of at least
    2, and it never returns more items than the data holds. *)
Theorem process_data_shape (s : DataProcessor.t) :
  Forall (fun y => 2 <= y /\ Z.even y = true)
         (snd (DataProcessor.process_data s))
  /\ (length (snd (DataProcessor.process_data s))
      <= length (DataProcessor.data s))%nat.
Proof.
  rewrite process_data_result. split.
  - apply doubled_positives_shape.
  - rewrite length_doubled_positives. apply count_positive_le.
Qed.

(** X13: adding one item extends the processed list at its end: by the
    doubled item when the item is positive, by nothing otherwise. *)
Theorem process_data_after_add_item (s : DataProcessor.t) (item : Z) :
  snd (DataProcessor.process_data (DataProcessor.add_item s item))
  = snd (DataProcessor.process_data s)
    ++ (if 0 <? item then [2 * item] else []).
Proof.
  rewrite !process_data_result. simpl.
  rewrite doubled_positives_app. f_equal.
  rewrite doubled_positives_cons. reflexivity.
Qed.

(** Every dict [statistics] returns is built from the sum and the length
    of the data, some average, and the maximum (or [0] on empty data). *)
Lemma statistics_ok_inv (ds : list Z) (d : gmap string number) :
  statistics ds = Ok d ->
  exists average mx,
    d = summary_dict (Py.sum ds) (Py.len ds) average mx
    /\ match ds with
       | [] => mx = 0
       | _ :: _ => Py.max ds = Ok mx
       end.
Proof.
  unfold statistics. intros H.
  destruct (if 0 <? Py.len ds
            then PyFloat <$> Py.true_div (Py.sum ds) (Py.len ds)
            else Ok (PyInt 0)) as [average|e]; [|discriminate H].
  destruct ds as [|x rest].
  - simpl in H. injection H as <-. now exists average, 0.
  - destruct (Py.max (x :: rest)) as [mx|e] eqn:Hm; [|discriminate H].
    simpl in H. injection H as <-. now exists average, mx.
Qed.

(** X14: a summary returned by [get_statistics] has exactly the four keys
    [total], [count], [average] and [max]. *)
Theorem get_statistics_keys (s : DataProcessor.t) (d : gmap string number) :
  snd (DataProcessor.get_statistics s) = Ok d ->
  dom d = {[ "total"%string; "count"%string; "average"%string; "max"%string ]}.
Proof.
  rewrite get_statistics_result. intros H.
  apply statistics_ok_inv in H as (average & mx & -> & _).
  unfold summary_dict. rewrite !dom_insert_L, dom_empty_L. set_solver.
Qed.

Lemma get_statistics_keys_witness :
  snd (DataProcessor.get_statistics (DataProcessor.__init__ "p"))
  = Ok (summary_dict 0 0 (PyInt 0) 0)
  /\ dom (summary_dict 0 0 (PyInt 0) 0)
     = {[ "total"%string; "count"%string; "average"%string; "max"%string ]}.
Proof.
  split; [reflexivity|].
  apply (get_statistics_keys (DataProcessor.__init__ "p")). reflexivity.
Defined.

Lemma arith_sum_le_max (ds : list Z) (m : Z) :
  Forall (fun x => x <= m) ds -> arith_sum ds <= Z.of_nat (length ds) * m.
Proof.
  induction 1 as [|x ds Hx _ IH]; simpl arith_sum; simpl length; lia.
Qed.

(** X15: the fields of a returned summary are consistent with each other:
    the count is not negative and the total is at most count times max. *)
Theorem get_statistics_total_bound (s : DataProcessor.t) (d : gmap string number) :
  snd (DataProcessor.get_statistics s) = Ok d ->
  exists total count mx,
    d !! "total"%string = Some (PyInt total)
    /\ d !! "count"%string = Some (PyInt count)
    /\ d !! "max"%string = Some (PyInt mx)
    /\ 0 <= count
    /\ total <= count * mx.
Proof.
  rewrite get_statistics_result. intros H.
  apply statistics_ok_inv in H as (average & mx & -> & Hmx).
  exists (Py.sum (DataProcessor.data s)), (Py.len (DataProcessor.data s)), mx.
  destruct (summary_dict_lookups (Py.sum (DataProcessor.data s))
              (Py.len (DataProcessor.data s)) average mx) as (Ht & Hc & _ & Hx).
  split; [exact Ht|]. split; [exact Hc|]. split; [exact Hx|].
  unfold Py.len. split; [lia|].
  rewrite py_sum_arith_sum.
  destruct (DataProcessor.data s) as [|x rest].
  - subst mx. simpl. lia.
  - destruct (py_max_is_maximum x rest) as (m & Hm & _ & Hall).
    rewrite Hm in Hmx. injection Hmx as <-.
    now apply arith_sum_le_max.
Qed.

Lemma get_statistics_total_bound_witness :
  let s := create_processor "p" (Some [1; 2; 3; 4; 5]) in
  exists d,
    snd (DataProcessor.get_statistics s) = Ok d
    /\ exists total count mx,
        d !! "total"%string = Some (PyInt total)
        /\ d !! "count"%string = Some (PyInt count)
        /\ d !! "max"%string = Some (PyInt mx)
        /\ 0 <= count
        /\ total <= count * mx.
Proof.
  intros s.
  exists (summary_dict 15 5
            (PyFloat (S754_finite false 6755399441055744 (-51))) 5).
  assert (E : snd (DataProcessor.get_statistics s)
              = Ok (summary_dict 15 5
                      (PyFloat (S754_finite false 6755399441055744 (-51))) 5))
    by (vm_compute; reflexivity).
  split; [exact E|].
  apply (get_statistics_total_bound s). exact E.
Defined.

(** ** examples/gui_example.py: the button grid *)

(** The grid cell of a button. *)
Definition cell (b : SimpleGUI.button) : Z * Z :=
  (SimpleGUI.row b, SimpleGUI.column b).

(** X16: the loop of [create_widgets] places digit [i] in rows 0 to 3 and
    columns 0 to 2, and the cell determines the digit: [i] is 9 minus the
    row-major index of the cell.  So no two digits share a cell and no
    digit lands in column 3, where the operator buttons are. *)
Theorem digit_button_cell (i : Z) :
  0 <= i < 10 ->
  let b := SimpleGUI.digit_button i in
  0 <= SimpleGUI.row b <= 3
  /\ 0 <= SimpleGUI.column b <= 2
  /\ i = 9 - (3 * SimpleGUI.row b + SimpleGUI.column b).
Proof.
  intros Hi. simpl.
  pose proof (Z.div_mod (9 - i) 3 ltac:(lia)) as Hdm.
  pose proof (Z.mod_pos_bound (9 - i) 3 ltac:(lia)) as Hm.
  assert (0 <= (9 - i) `div` 3 <= 3).
  { split; [apply Z.div_pos; lia|].
    apply Z.div_le_upper_bound; lia. }
  lia.
Qed.

Lemma digit_button_cell_witness :
  0 <= 7 < 10
  /\ (0 <= SimpleGUI.row (SimpleGUI.digit_button 7) <= 3
      /\ 0 <= SimpleGUI.column (SimpleGUI.digit_button 7) <= 2
      /\ 7 = 9 - (3 * SimpleGUI.row (SimpleGUI.digit_button 7)
                  + SimpleGUI.column (SimpleGUI.digit_button 7))).
Proof.
  split; [lia|]. apply (digit_button_cell 7). lia.
Defined.

(** X17: the thirteen buttons of [create_widgets] occupy thirteen
    different grid cells: no button is placed over another. *)
Theorem create_widgets_cells_distinct :
  length SimpleGUI.create_widgets = 13%nat
  /\ NoDup (map cell SimpleGUI.create_widgets).
Proof.
  split; [reflexivity|].
  apply (bool_decide_unpack _). vm_compute. exact I.
Qed.

(** ** examples/gui_example.py: the handlers *)

(** The character of a keypad digit. *)
Definition digit_char (i : Z) : Ascii.ascii := Ascii.ascii_of_nat (48 + Z.to_nat i).

Lemma pretty_digit (i : Z) :
  0 <= i < 10 -> pretty i = String (digit_char i) EmptyString.
Proof.
  intros Hi.
  assert (H : i = 0 \/ i = 1 \/ i = 2 \/ i = 3 \/ i = 4
              \/ i = 5 \/ i = 6 \/ i = 7 \/ i = 8 \/ i = 9) by lia.
  repeat (destruct H as [->|H]; [vm_compute; reflexivity|]).
  subst i. vm_compute. reflexivity.
Qed.

Lemma list_ascii_of_string_app (s1 s2 : string) :
  String.list_ascii_of_string (s1 ++ s2)
  = String.list_ascii_of_string s1 ++ String.list_ascii_of_string s2.
Proof. induction s1 as [|c s1 IH]; simpl; [reflexivity | now rewrite IH]. Qed.

(** The characters the keypad can produce: the digits, the blank and the
    plus sign. *)
Definition keypad_alphabet : list Ascii.ascii :=
  String.list_ascii_of_string "0123456789 +".

Definition keypad_text (s : string) : Prop :=
  Forall (fun c => c ∈ keypad_alphabet) (String.list_ascii_of_string s).

(** The commands of the buttons other than [=]. *)
Definition keypad_command (c : SimpleGUI.command) : Prop :=
  match c with
  | SimpleGUI.CmdNumber x => 0 <= x < 10
  | SimpleGUI.CmdOperation op => op = "+"%string
  | SimpleGUI.CmdClear => True
  | SimpleGUI.CmdCalculate => False
  end.

Lemma digit_char_keypad (i : Z) : 0 <= i < 10 -> digit_char i ∈ keypad_alphabet.
Proof.
  intros Hi.
  assert (H : i = 0 \/ i = 1 \/ i = 2 \/ i = 3 \/ i = 4
              \/ i = 5 \/ i = 6 \/ i = 7 \/ i = 8 \/ i = 9) by lia.
  repeat (destruct H as [->|H];
          [apply (bool_decide_unpack _); vm_compute; exact I|]).
  subst i. apply (bool_decide_unpack _). vm_compute. exact I.
Qed.

Lemma keypad_text_app (s1 s2 : string) :
  keypad_text s1 -> keypad_text s2 -> keypad_text (s1 ++ s2).
Proof.
  unfold keypad_text. intros H1 H2.
  rewrite list_ascii_of_string_app. now apply Forall_app.
Qed.

Lemma keypad_text_plus : keypad_text " + ".
Proof. apply (bool_decide_unpack _). vm_compute. exact I. Qed.

Lemma keypad_text_digit (i : Z) : 0 <= i < 10 -> keypad_text (pretty i).
Proof.
  intros Hi. rewrite (pretty_digit i Hi). unfold keypad_text. simpl.
  constructor; [now apply digit_char_keypad | constructor].
Qed.



Example keypad_sum_display :
  SimpleGUI.presses (SimpleGUI.clear {| SimpleGUI.result_var := "x" |})
    [SimpleGUI.CmdNumber 1; SimpleGUI.CmdOperation "+"; SimpleGUI.CmdNumber 2]
  = Some ({| SimpleGUI.result_var := "1 + 2" |}, []).
Proof. vm_compute. reflexivity. Qed.
